(** * setsid: detach a command into a new session and record the session id

    A shallow embedding of [src/eval/setsid.c] and the properties of its
    single function [main].

    The program is a straight line of C library calls whose outcome is
    decided by the operating system.  The embedding therefore has three
    layers:

    - [os]: what the operating system answers to each call (an oracle);
    - the C library calls the program uses ([fork], [setsid], [getsid],
      [fopen], [fprintf], [fflush], [fclose], [perror], [execvp], [exit]),
      each as an action on the state of the calling process that records
      the call in the process's trace;
    - [main], transcribed statement by statement from the C source.

    [fork] returns twice, so actions are written in continuation-passing
    style: the rest of the program is run once in each process and the
    outcome of a run is the list of processes (the original one first) with
    the way each one ended. *)

From Stdlib Require Import ZArith String Ascii Decimal DecimalString DecimalZ Lia.
From stdpp Require Import gmap strings list fin_maps.

Local Open Scope Z_scope.

(** ** Text *)

(** The C escape [\n]. *)
Definition nl : string := String "010"%char EmptyString.

(** [printf]'s [%d] conversion of an [int]. *)
Definition fmt_d (n : Z) : string := NilZero.string_of_int (Z.to_int n).

(** [printf]'s [%s] conversion.  A C string argument is a pointer; [None]
    is the null pointer, which the BSD and GNU C libraries print as
    [(null)]. *)
Definition fmt_s (s : option string) : string :=
  match s with
  | Some s => s
  | None => "(null)"
  end.

Definition is_digit (c : ascii) : bool :=
  (48 <=? Z.of_nat (nat_of_ascii c)) && (Z.of_nat (nat_of_ascii c) <=? 57).

Fixpoint all_digits (s : string) : bool :=
  match s with
  | EmptyString => true
  | String c s' => is_digit c && all_digits s'
  end.

(** A text that is exactly one line holding a non-negative decimal number:
    one or more digits, then a newline, then nothing. *)
Fixpoint is_number_line (s : string) : bool :=
  match s with
  | EmptyString => false
  | String c s' =>
      is_digit c &&
      match s' with
      | String "010"%char EmptyString => true
      | _ => is_number_line s'
      end
  end.

(** Reading such a line back: the number before the newline. *)
Fixpoint before_nl (s : string) : string :=
  match s with
  | EmptyString => EmptyString
  | String c s' => if Ascii.eqb c "010"%char then EmptyString else String c (before_nl s')
  end.

Definition read_number_line (s : string) : option Z :=
  option_map Z.of_int (NilZero.int_of_string (before_nl s)).

(** ** The operating system *)

(** The answer to a call that yields a value: the value, or the [errno] of
    the failure. *)
Inductive answer (A : Type) : Type :=
| Ok (a : A)
| Err (e : Z).
Arguments Ok {A} a.
Arguments Err {A} e.

(** The answer to a call that moves bytes: all of them, or a failure with
    its [errno] after [done] bytes went through. *)
Inductive io_answer : Type :=
| IoOk
| IoErr (e : Z) (done : nat).

(** What comes of [execvp] trying one path. *)
Inductive exec_answer : Type :=
| ExecRuns      (* the file becomes the process image *)
| ExecShell     (* [ENOEXEC], no recognised format: the shell is started on the file *)
| ExecSkip      (* the path fails, a search goes on to the next directory *)
| ExecStop.     (* the path fails and [execvp] gives up *)

(** Process and session identifiers handed out by the system are positive;
    the C functions return them as a [pid_t], with [-1] for failure. *)
Record os : Type := {
  os_fork : answer positive;          (* pid of the new child *)
  os_setsid : answer positive;        (* id of the new session *)
  os_getsid : answer positive;        (* session id of the caller *)
  os_fopen : string -> option Z;      (* [Some errno]: the path cannot be opened for writing *)
  os_fprintf : io_answer;
  os_fflush : io_answer;
  os_fclose : io_answer;
  os_keeps_unwritten : bool;          (* a failed flush leaves the unwritten bytes in the buffer *)
  os_path : list string;              (* directories of the executable search path *)
  os_execve : string -> exec_answer;  (* what comes of trying a path *)
  os_shell : string;                  (* the shell [execvp] falls back to, *)
  os_shell_arg0 : string;             (* and the name it is started under *)
  os_exec_errno : Z;                  (* [errno] of [execvp] when it returns *)
  os_strerror : Z -> string           (* the system's description of an [errno] *)
}.

(** ** Processes *)

Inductive std_stream : Type := Stdout | Stderr.

(** One entry of a process's trace: a library call with its arguments and
    what it returned.  A [FILE *] is a handle; [None] is the null pointer. *)
Inductive event : Type :=
| Fork (ret : Z)
| Setsid (ret : Z)
| Getsid (pid : Z) (ret : Z)
| Fopen (path : string) (ret : option nat)
| Fprintf (f : nat) (text : string) (ret : Z)
| Fflush (f : nat) (ret : Z)
| Fclose (f : nat) (was_open : bool) (ret : Z)
| Execvp (file : string) (args : list string)
| Output (s : std_stream) (text : string)
| Exit (status : Z).

(** An open output stream: the file it writes to and the bytes buffered in
    the process, not yet in the file. *)
Record stream : Type := { s_path : string; s_buf : string }.

Record proc : Type := {
  p_child : bool;                     (* created by [fork] *)
  p_errno : Z;
  p_next : nat;                       (* next free stream handle *)
  p_streams : gmap nat stream;        (* the open streams *)
  p_files : gmap string string;       (* the files, by the path they are named with;
                                         links and other names of a file are not modelled *)
  p_trace : list event                (* the calls made so far, oldest first *)
}.

(** How a process ends: it exits with a status, or its image is replaced by
    another program started with an argument vector. *)
Inductive ending : Type :=
| Exited (status : Z)
| Replaced (image : string) (args : list string).

Definition result : Type := list (proc * ending).

Definition set_errno (e : Z) (p : proc) : proc :=
  {| p_child := p_child p; p_errno := e; p_next := p_next p;
     p_streams := p_streams p; p_files := p_files p; p_trace := p_trace p |}.

Definition emit (e : event) (p : proc) : proc :=
  {| p_child := p_child p; p_errno := p_errno p; p_next := p_next p;
     p_streams := p_streams p; p_files := p_files p;
     p_trace := p_trace p ++ [e] |}.

Definition set_streams (m : gmap nat stream) (p : proc) : proc :=
  {| p_child := p_child p; p_errno := p_errno p; p_next := p_next p;
     p_streams := m; p_files := p_files p; p_trace := p_trace p |}.

Definition set_files (m : gmap string string) (p : proc) : proc :=
  {| p_child := p_child p; p_errno := p_errno p; p_next := p_next p;
     p_streams := p_streams p; p_files := m; p_trace := p_trace p |}.

Definition bump_next (p : proc) : proc :=
  {| p_child := p_child p; p_errno := p_errno p; p_next := S (p_next p);
     p_streams := p_streams p; p_files := p_files p; p_trace := p_trace p |}.

(** The process [fork] creates: a copy of the caller with a trace of its
    own. *)
Definition child_of (p : proc) : proc :=
  {| p_child := true; p_errno := p_errno p; p_next := p_next p;
     p_streams := p_streams p; p_files := p_files p; p_trace := [] |}.

(** The process the program starts in. *)
Definition initial (fs : gmap string string) : proc :=
  {| p_child := false; p_errno := 0; p_next := 0%nat;
     p_streams := ∅; p_files := fs; p_trace := [] |}.

(** ** Actions *)

(** An action takes the rest of the program and the calling process. *)
Definition M (A : Type) : Type := (A -> proc -> result) -> proc -> result.

Definition ret {A : Type} (a : A) : M A := fun k p => k a p.

Definition bind {A B : Type} (m : M A) (f : A -> M B) : M B :=
  fun k p => m (fun a p' => f a k p') p.

Declare Scope action_scope.
Delimit Scope action_scope with action.
Notation "x <- m ;; f" := (bind m (fun x => f))
  (at level 100, m at next level, right associativity) : action_scope.
Notation "m ;; f" := (bind m (fun _ => f))
  (at level 100, right associativity) : action_scope.

(** Appending [text] to what the file at [path] holds. *)
Definition append_file (path text : string) (fs : gmap string string)
  : gmap string string :=
  <[path := (default EmptyString (fs !! path) ++ text)%string]> fs.

(** The first [n] bytes of a text, and the rest. *)
Definition take_bytes (n : nat) (s : string) : string := substring 0 n s.
Definition drop_bytes (n : nat) (s : string) : string :=
  substring n (String.length s - n) s.

(** The path [execvp] tries for [file] in a directory of the search path;
    an empty entry is the current directory. *)
Definition in_dir (file dir : string) : string :=
  match dir with
  | EmptyString => ("./" ++ file)%string
  | _ => (dir ++ "/" ++ file)%string
  end.

Fixpoint has_slash (s : string) : bool :=
  match s with
  | EmptyString => false
  | String c s' => Ascii.eqb c "/"%char || has_slash s'
  end.

(** The paths [execvp] tries, in order: none for the empty name, a name
    with a slash as it is, a bare name in each directory of the search
    path. *)
Definition execvp_candidates (path : list string) (file : string) : list string :=
  match file with
  | EmptyString => []
  | _ => if has_slash file then [file] else map (in_dir file) path
  end.

(** The search: the first path that does not fail decides; with it,
    whether it is started through the shell. *)
Fixpoint execvp_search (try : string -> exec_answer) (candidates : list string)
  : option (string * bool) :=
  match candidates with
  | [] => None
  | path :: rest =>
      match try path with
      | ExecRuns => Some (path, false)
      | ExecShell => Some (path, true)
      | ExecSkip => execvp_search try rest
      | ExecStop => None
      end
  end.

Section Libc.

Context (o : os).

Definition execvp_started (file : string) : option (string * bool) :=
  execvp_search (os_execve o) (execvp_candidates (os_path o) file).

(** The file [execvp] starts for a name, if any. *)
Definition execvp_resolve (file : string) : option string :=
  option_map fst (execvp_started file).

(** [fork()]: on success the rest of the program runs in both processes,
    with the child's pid in the caller and [0] in the child. *)
Definition fork : M Z := fun k p =>
  match os_fork o with
  | Err e => k (-1) (emit (Fork (-1)) (set_errno e p))
  | Ok c => k (Z.pos c) (emit (Fork (Z.pos c)) p)
            ++ k 0 (emit (Fork 0) (child_of p))
  end.

(** [exit(status)] does not return. *)
Definition exit {A : Type} (status : Z) : M A := fun _ p =>
  [(emit (Exit status) p, Exited status)].

Definition setsid : M Z := fun k p =>
  match os_setsid o with
  | Err e => k (-1) (emit (Setsid (-1)) (set_errno e p))
  | Ok s => k (Z.pos s) (emit (Setsid (Z.pos s)) p)
  end.

Definition getsid (pid : Z) : M Z := fun k p =>
  match os_getsid o with
  | Err e => k (-1) (emit (Getsid pid (-1)) (set_errno e p))
  | Ok s => k (Z.pos s) (emit (Getsid pid (Z.pos s)) p)
  end.

(** [fprintf(stderr, ...)] with the text already formatted. *)
Definition fprintf_stderr (text : string) : M Z := fun k p =>
  k (Z.of_nat (String.length text)) (emit (Output Stderr text) p).

(** [perror(label)]: the label, a colon and the description of the
    current [errno], on the error stream. *)
Definition perror (label : string) : M unit := fun k p =>
  k tt (emit (Output Stderr
                (label ++ ": " ++ os_strerror o (p_errno p) ++ nl)%string) p).

(** [fopen(path, "w")]: creates the file or truncates it, and opens a
    stream with an empty buffer; the null pointer on failure. *)
Definition fopen_w (path : string) : M (option nat) := fun k p =>
  match os_fopen o path with
  | Some e => k None (emit (Fopen path None) (set_errno e p))
  | None =>
      let f := p_next p in
      k (Some f)
        (emit (Fopen path (Some f))
           (bump_next
              (set_streams (<[f := {| s_path := path; s_buf := EmptyString |}]> (p_streams p))
                 (set_files (<[path := EmptyString]> (p_files p)) p))))
  end.

(** [fprintf(f, ...)] with the text already formatted: the text goes to
    the stream's buffer and its length is returned; a negative value on
    failure.  Writing to a stream that is not open fails. *)
Definition fprintf (f : nat) (text : string) : M Z := fun k p =>
  match p_streams p !! f with
  | None => k (-1) (emit (Fprintf f text (-1)) p)
  | Some s =>
      match os_fprintf o with
      | IoOk =>
          let n := Z.of_nat (String.length text) in
          k n (emit (Fprintf f text n)
                 (set_streams
                    (<[f := {| s_path := s_path s; s_buf := (s_buf s ++ text)%string |}]>
                       (p_streams p)) p))
      | IoErr e done =>
          k (-1) (emit (Fprintf f text (-1))
                    (set_errno e
                       (set_streams
                          (<[f := {| s_path := s_path s;
                                     s_buf := (s_buf s ++ take_bytes done text)%string |}]>
                             (p_streams p)) p)))
      end
  end.

(** Moving a stream's buffer to its file, as [fflush] and [fclose] do:
    the file system and the buffer afterwards, and the value returned
    ([0], or [EOF] with the [errno]).  After a failure the bytes that did
    not go through stay in the buffer or are dropped, as the library has
    it. *)
Definition write_out (a : io_answer) (s : stream) (fs : gmap string string)
  : gmap string string * stream * Z * option Z :=
  match a with
  | IoOk =>
      (append_file (s_path s) (s_buf s) fs,
       {| s_path := s_path s; s_buf := EmptyString |}, 0, None)
  | IoErr e done =>
      (append_file (s_path s) (take_bytes done (s_buf s)) fs,
       {| s_path := s_path s;
          s_buf := if os_keeps_unwritten o then drop_bytes done (s_buf s)
                   else EmptyString |}, -1, Some e)
  end.

Definition with_errno (e : option Z) (p : proc) : proc :=
  match e with
  | Some e => set_errno e p
  | None => p
  end.

Definition fflush (f : nat) : M Z := fun k p =>
  match p_streams p !! f with
  | None => k (-1) (emit (Fflush f (-1)) p)
  | Some s =>
      let '(fs, s', r, e) := write_out (os_fflush o) s (p_files p) in
      k r (emit (Fflush f r)
             (with_errno e (set_streams (<[f := s']> (p_streams p)) (set_files fs p))))
  end.

(** [fclose(f)]: writes the buffer out and closes the stream, whether or
    not the writing succeeds. *)
Definition fclose (f : nat) : M Z := fun k p =>
  match p_streams p !! f with
  | None => k (-1) (emit (Fclose f false (-1)) p)
  | Some s =>
      let '(fs, _, r, e) := write_out (os_fclose o) s (p_files p) in
      k r (emit (Fclose f true r)
             (with_errno e (set_streams (delete f (p_streams p)) (set_files fs p))))
  end.

(** [execvp(file, args)]: on success the process continues as the file
    found with the vector given, or, when the file has no recognised
    format, as the shell with the file's path put before the arguments;
    the rest of the program is dropped.  On failure it returns [-1]. *)
Definition execvp (file : string) (args : list string) : M Z := fun k p =>
  let p' := emit (Execvp file args) p in
  match execvp_started file with
  | Some (path, false) => [(p', Replaced path args)]
  | Some (path, true) =>
      [(p', Replaced (os_shell o) (os_shell_arg0 o :: path :: tail args))]
  | None => k (-1) (set_errno (os_exec_errno o) p')
  end.

(** ** The program *)

Local Open Scope action_scope.

(** [argv[i]] for an index below [argc]. *)
Definition arg (argv : list string) (i : nat) : string :=
  nth i argv EmptyString.

Definition usage (argv : list string) : string :=
  ("usage: " ++ fmt_s (argv !! 0%nat) ++ " <session-file> <command> [args...]" ++ nl)%string.

Definition main (argv : list string) : M Z :=
  let argc := Z.of_nat (length argv) in
  if argc <? 3 then
    fprintf_stderr (usage argv) ;;
    ret 1
  else
    let session_file_path := arg argv 1 in
    pid <- fork ;;
    if pid <? 0 then
      perror "fork" ;;
      ret 1
    else if pid >? 0 then
      exit 0
    else
      r <- setsid ;;
      if r <? 0 then
        perror "setsid" ;;
        ret 1
      else
        sid <- getsid 0 ;;
        if sid <? 0 then
          perror "getsid" ;;
          ret 1
        else
          session_file <- fopen_w session_file_path ;;
          match session_file with
          | None =>
              perror "fopen session file" ;;
              ret 1
          | Some session_file =>
              w <- fprintf session_file (fmt_d sid ++ nl)%string ;;
              if w <? 0 then
                perror "fprintf session file" ;;
                fclose session_file ;;
                ret 1
              else
                fl <- fflush session_file ;;
                if negb (fl =? 0) then
                  perror "fflush session file" ;;
                  fclose session_file ;;
                  ret 1
                else
                  c <- fclose session_file ;;
                  if negb (c =? 0) then
                    perror "fclose session file" ;;
                    ret 1
                  else
                    execvp (arg argv 2) (drop 2 argv) ;;
                    perror "execvp" ;;
                    ret 1
          end.

(** Running the program: [main] in the initial process; returning from
    [main] ends the process with the value returned.  The C runtime would
    flush and close the streams still open at that point; the model leaves
    them in [p_streams], so that a stream left open shows in the result. *)
Definition run (argv : list string) (fs : gmap string string) : result :=
  main argv (fun status p => [(p, Exited status)]) (initial fs).

End Libc.


(** ** Observations on a run *)

(** The library function behind a trace entry. *)
Definition call_name (e : event) : string :=
  match e with
  | Fork _ => "fork"
  | Setsid _ => "setsid"
  | Getsid _ _ => "getsid"
  | Fopen _ _ => "fopen"
  | Fprintf _ _ _ => "fprintf"
  | Fflush _ _ => "fflush"
  | Fclose _ _ _ => "fclose"
  | Execvp _ _ => "execvp"
  | Output Stdout _ => "stdout"
  | Output Stderr _ => "stderr"
  | Exit _ => "exit"
  end.

(** Entries that create, truncate or write a file. *)
Definition is_file_event (e : event) : bool :=
  match e with
  | Fopen _ _ | Fprintf _ _ _ | Fflush _ _ | Fclose _ _ _ => true
  | _ => false
  end.

Definition is_exec (e : event) : bool :=
  match e with
  | Execvp _ _ => true
  | _ => false
  end.

Definition is_stdout (e : event) : bool :=
  match e with
  | Output Stdout _ => true
  | _ => false
  end.

(** Streams opened, [fclose] calls, and [fclose] calls on a stream that was
    not open (a second close). *)
Definition is_open_ok (e : event) : bool :=
  match e with
  | Fopen _ (Some _) => true
  | _ => false
  end.

Definition is_close (e : event) : bool :=
  match e with
  | Fclose _ _ _ => true
  | _ => false
  end.

Definition is_stale_close (e : event) : bool :=
  match e with
  | Fclose _ false _ => true
  | _ => false
  end.

Definition count (f : event -> bool) (t : list event) : nat :=
  length (List.filter f t).

(** The part of a trace before its first [execvp] call; the whole trace
    when there is none. *)
Fixpoint until_exec (t : list event) : list event :=
  match t with
  | [] => []
  | e :: t' => if is_exec e then [] else e :: until_exec t'
  end.

(** The lines a trace puts on the error stream, in order. *)
Fixpoint stderr_lines (t : list event) : list string :=
  match t with
  | [] => []
  | Output Stderr text :: t' => text :: stderr_lines t'
  | _ :: t' => stderr_lines t'
  end.

(** The calls made after the first line on the error stream. *)
Fixpoint after_stderr (t : list event) : list event :=
  match t with
  | [] => []
  | Output Stderr _ :: t' => t'
  | _ :: t' => after_stderr t'
  end.

(** ** The error taxonomy of the specification *)

Inductive failure : Type :=
| UsageError
| ProcessDuplicationError (e : Z)
| SessionCreationError (e : Z)
| SessionQueryError (e : Z)
| FileIOError (label : string) (e : Z)
| ExecError (e : Z).

(** The first sub-step on the session file that fails, as the label of its
    diagnostic and the [errno]: open, write, flush, close. *)
Definition file_failure (o : os) (path : string) : option (string * Z) :=
  match os_fopen o path with
  | Some e => Some ("fopen session file"%string, e)
  | None =>
      match os_fprintf o with
      | IoErr e _ => Some ("fprintf session file"%string, e)
      | IoOk =>
          match os_fflush o with
          | IoErr e _ => Some ("fflush session file"%string, e)
          | IoOk =>
              match os_fclose o with
              | IoErr e _ => Some ("fclose session file"%string, e)
              | IoOk => None
              end
          end
      end
  end.

(** The first step of the specification's sequence (validate, duplicate,
    create session, query session, write file, replace image) that fails
    under the system's answers, if any. *)
Definition first_failure (o : os) (argv : list string) : option failure :=
  if (length argv <? 3)%nat then Some UsageError
  else
    match os_fork o with
    | Err e => Some (ProcessDuplicationError e)
    | Ok _ =>
        match os_setsid o with
        | Err e => Some (SessionCreationError e)
        | Ok _ =>
            match os_getsid o with
            | Err e => Some (SessionQueryError e)
            | Ok _ =>
                match file_failure o (arg argv 1) with
                | Some (label, e) => Some (FileIOError label e)
                | None =>
                    match execvp_resolve o (arg argv 2) with
                    | None => Some (ExecError (os_exec_errno o))
                    | Some _ => None
                    end
                end
            end
        end
    end.

(** A step's label with the system's description of the error. *)
Definition describe (o : os) (label : string) (e : Z) : string :=
  (label ++ ": " ++ os_strerror o e ++ nl)%string.

Definition diagnostic (o : os) (argv : list string) (f : failure) : string :=
  match f with
  | UsageError => usage argv
  | ProcessDuplicationError e => describe o "fork" e
  | SessionCreationError e => describe o "setsid" e
  | SessionQueryError e => describe o "getsid" e
  | FileIOError label e => describe o label e
  | ExecError e => describe o "execvp" e
  end.

(** ** A concrete system *)

Definition ENOENT : Z := 2.
Definition EACCES : Z := 13.
Definition EAGAIN : Z := 35.
Definition ENOSPC : Z := 28.
Definition EPERM : Z := 1.

Definition demo_strerror (e : Z) : string :=
  if e =? ENOENT then "No such file or directory"
  else if e =? EACCES then "Permission denied"
  else if e =? EAGAIN then "Resource temporarily unavailable"
  else if e =? ENOSPC then "No space left on device"
  else if e =? EPERM then "Operation not permitted"
  else "Unknown error".

(** Everything works; [echo] is found in [/bin], and so is [job], a script
    without an interpreter line. *)
Definition demo_os : os :=
  {| os_fork := Ok 4242%positive;
     os_setsid := Ok 4242%positive;
     os_getsid := Ok 4242%positive;
     os_fopen := fun _ => None;
     os_fprintf := IoOk;
     os_fflush := IoOk;
     os_fclose := IoOk;
     os_keeps_unwritten := true;
     os_path := ["/usr/bin"; "/bin"]%string;
     os_execve := fun p => if String.eqb p "/bin/echo" then ExecRuns
                           else if String.eqb p "/bin/sh" then ExecRuns
                           else if String.eqb p "/bin/job" then ExecShell
                           else ExecSkip;
     os_shell := "/bin/sh";
     os_shell_arg0 := "sh";
     os_exec_errno := ENOENT;
     os_strerror := demo_strerror |}.

(** The same system with some answers replaced. *)
Definition with_fopen (f : string -> option Z) (o : os) : os :=
  {| os_fork := os_fork o; os_setsid := os_setsid o; os_getsid := os_getsid o;
     os_fopen := f; os_fprintf := os_fprintf o; os_fflush := os_fflush o;
     os_fclose := os_fclose o; os_keeps_unwritten := os_keeps_unwritten o;
     os_path := os_path o; os_execve := os_execve o; os_shell := os_shell o;
     os_shell_arg0 := os_shell_arg0 o; os_exec_errno := os_exec_errno o;
     os_strerror := os_strerror o |}.

Definition with_fflush (a : io_answer) (o : os) : os :=
  {| os_fork := os_fork o; os_setsid := os_setsid o; os_getsid := os_getsid o;
     os_fopen := os_fopen o; os_fprintf := os_fprintf o; os_fflush := a;
     os_fclose := os_fclose o; os_keeps_unwritten := os_keeps_unwritten o;
     os_path := os_path o; os_execve := os_execve o; os_shell := os_shell o;
     os_shell_arg0 := os_shell_arg0 o; os_exec_errno := os_exec_errno o;
     os_strerror := os_strerror o |}.

Definition with_getsid (a : answer positive) (o : os) : os :=
  {| os_fork := os_fork o; os_setsid := os_setsid o; os_getsid := a;
     os_fopen := os_fopen o; os_fprintf := os_fprintf o; os_fflush := os_fflush o;
     os_fclose := os_fclose o; os_keeps_unwritten := os_keeps_unwritten o;
     os_path := os_path o; os_execve := os_execve o; os_shell := os_shell o;
     os_shell_arg0 := os_shell_arg0 o; os_exec_errno := os_exec_errno o;
     os_strerror := os_strerror o |}.

Definition with_fork (a : answer positive) (o : os) : os :=
  {| os_fork := a; os_setsid := os_setsid o; os_getsid := os_getsid o;
     os_fopen := os_fopen o; os_fprintf := os_fprintf o; os_fflush := os_fflush o;
     os_fclose := os_fclose o; os_keeps_unwritten := os_keeps_unwritten o;
     os_path := os_path o; os_execve := os_execve o; os_shell := os_shell o;
     os_shell_arg0 := os_shell_arg0 o; os_exec_errno := os_exec_errno o;
     os_strerror := os_strerror o |}.

(** A system where [/nonexistent-dir] does not exist. *)
Definition demo_os_nodir : os :=
  with_fopen (fun p => if String.prefix "/nonexistent-dir/" p then Some ENOENT else None)
    demo_os.

(** A system whose disk is full when the buffer is flushed. *)
Definition demo_os_full : os := with_fflush (IoErr ENOSPC 2) demo_os.

Definition demo_argv : list string :=
  ["setsid"; "/tmp/sess.txt"; "echo"; "hello"; "world"]%string.


Definition demo_argv_missing : list string :=
  ["setsid"; "/tmp/sess.txt"; "no-such-command"; "x"]%string.

Definition demo_argv_nodir : list string :=
  ["setsid"; "/nonexistent-dir/sess.txt"; "true"]%string.

Definition demo_fs : gmap string string :=
  {[ "/tmp/sess.txt"%string := "stale"%string ]}.

(** The process at position [i] of a run's result. *)
Definition process (r : result) (i : nat) : proc * ending :=
  nth i r (initial ∅, Exited 0).

(** ** Decimal text *)

Lemma uint_digits (d : uint) : all_digits (NilEmpty.string_of_uint d) = true.
Proof. induction d; simpl; auto. Qed.

Lemma uint_nonempty (d : uint) : d <> Nil -> NilEmpty.string_of_uint d <> EmptyString.
Proof. destruct d; simpl; congruence. Qed.

Lemma digits_line (s : string) :
  all_digits s = true -> s <> EmptyString -> is_number_line (s ++ nl) = true.
Proof.
  induction s as [|c s IH]; [congruence|].
  simpl all_digits. intros [Hc Hs]%andb_prop _.
  change (String c s ++ nl)%string with (String c (s ++ nl)%string).
  cbn [is_number_line]. rewrite Hc. cbn [andb].
  destruct s as [|c' s']; [reflexivity|].
  specialize (IH Hs ltac:(congruence)).
  change (String c' s' ++ nl)%string with (String c' (s' ++ nl)%string) in *.
  destruct c' as [[] [] [] [] [] [] [] []]; try exact IH.
  simpl in Hs. discriminate.
Qed.

Lemma digits_before_nl (s : string) :
  all_digits s = true -> before_nl (s ++ nl) = s.
Proof.
  induction s as [|c s IH]; [reflexivity|].
  simpl all_digits. intros [Hc Hs]%andb_prop.
  change (String c s ++ nl)%string with (String c (s ++ nl)%string).
  cbn [before_nl]. rewrite (IH Hs).
  destruct (Ascii.eqb_spec c "010"%char) as [->|_]; [discriminate Hc|reflexivity].
Qed.

Lemma fmt_d_digits (n : Z) :
  0 <= n -> all_digits (fmt_d n) = true /\ fmt_d n <> EmptyString.
Proof.
  intros Hn. unfold fmt_d.
  destruct n as [|p|p]. 1:{ split; [reflexivity|discriminate]. } 2:{ lia. }
  cbn [Z.to_int NilZero.string_of_int]. unfold NilZero.string_of_uint.
  pose proof (DecimalPos.Unsigned.to_uint_nonnil p) as Hp.
  destruct (Pos.to_uint p) eqn:E; [congruence|..];
    (split; [apply uint_digits|apply uint_nonempty; congruence]).
Qed.

Lemma fmt_d_line (n : Z) :
  0 <= n ->
  is_number_line (fmt_d n ++ nl) = true /\
  read_number_line (fmt_d n ++ nl) = Some n.
Proof.
  intros Hn. destruct (fmt_d_digits n Hn) as [Hd He]. split.
  - apply digits_line; assumption.
  - unfold read_number_line. rewrite (digits_before_nl _ Hd).
    unfold fmt_d. rewrite NilZero.isi.
    + cbn [option_map]. f_equal. apply DecimalZ.of_to.
    + destruct n; cbn; try discriminate.
      intros [= H]. exact (DecimalPos.Unsigned.to_uint_nonnil _ H).
    + destruct n; cbn; try discriminate; lia.
Qed.

(** ** Stepping through a run *)

Lemma length_not_neg (s : string) : (Z.of_nat (String.length s) <? 0) = false.
Proof. apply Z.ltb_ge. lia. Qed.

Lemma app_empty_r (s : string) : (s ++ EmptyString)%string = s.
Proof.
  induction s as [|c s IH]; [reflexivity|].
  change (String c (s ++ EmptyString)%string = String c s). congruence.
Qed.

Lemma append_file_lookup (path text : string) (fs : gmap string string) :
  append_file path text fs !! path
  = Some (default EmptyString (fs !! path) ++ text)%string.
Proof. unfold append_file. apply lookup_insert_eq. Qed.


(** The equation of each action on a process written out as a record. *)
Section Steps.

Context (o : os) {A : Type} (k : A -> proc -> result).
Context (ch : bool) (er : Z) (nx : nat) (st : gmap nat stream)
        (fs : gmap string string) (tr : list event).

Local Abbreviation P := {| p_child := ch; p_errno := er; p_next := nx;
                 p_streams := st; p_files := fs; p_trace := tr |}.

Lemma bind_eq {B : Type} (m : M B) (f : B -> M A) (p : proc) :
  bind m f k p = m (fun a p' => f a k p') p.
Proof. reflexivity. Qed.

Lemma ret_eq (a : A) (p : proc) : ret a k p = k a p.
Proof. reflexivity. Qed.

Lemma exit_eq (status : Z) :
  exit status k P
  = [({| p_child := ch; p_errno := er; p_next := nx; p_streams := st;
         p_files := fs; p_trace := tr ++ [Exit status] |}, Exited status)].
Proof. reflexivity. Qed.

End Steps.

Section StepsZ.

Context (o : os) (k : Z -> proc -> result).
Context (ch : bool) (er : Z) (nx : nat) (st : gmap nat stream)
        (fs : gmap string string) (tr : list event).

Local Abbreviation P := {| p_child := ch; p_errno := er; p_next := nx;
                 p_streams := st; p_files := fs; p_trace := tr |}.

Lemma fork_eq :
  fork o k P
  = match os_fork o with
    | Err e =>
        k (-1) {| p_child := ch; p_errno := e; p_next := nx; p_streams := st;
                  p_files := fs; p_trace := tr ++ [Fork (-1)] |}
    | Ok c =>
        k (Z.pos c) {| p_child := ch; p_errno := er; p_next := nx; p_streams := st;
                       p_files := fs; p_trace := tr ++ [Fork (Z.pos c)] |}
        ++ k 0 {| p_child := true; p_errno := er; p_next := nx; p_streams := st;
                  p_files := fs; p_trace := [Fork 0] |}
    end.
Proof. unfold fork. destruct (os_fork o); reflexivity. Qed.

Lemma setsid_eq :
  setsid o k P
  = match os_setsid o with
    | Err e =>
        k (-1) {| p_child := ch; p_errno := e; p_next := nx; p_streams := st;
                  p_files := fs; p_trace := tr ++ [Setsid (-1)] |}
    | Ok s =>
        k (Z.pos s) {| p_child := ch; p_errno := er; p_next := nx; p_streams := st;
                       p_files := fs; p_trace := tr ++ [Setsid (Z.pos s)] |}
    end.
Proof. unfold setsid. destruct (os_setsid o); reflexivity. Qed.

Lemma getsid_eq (pid : Z) :
  getsid o pid k P
  = match os_getsid o with
    | Err e =>
        k (-1) {| p_child := ch; p_errno := e; p_next := nx; p_streams := st;
                  p_files := fs; p_trace := tr ++ [Getsid pid (-1)] |}
    | Ok s =>
        k (Z.pos s) {| p_child := ch; p_errno := er; p_next := nx; p_streams := st;
                       p_files := fs; p_trace := tr ++ [Getsid pid (Z.pos s)] |}
    end.
Proof. unfold getsid. destruct (os_getsid o); reflexivity. Qed.

Lemma fprintf_stderr_eq (text : string) :
  fprintf_stderr text k P
  = k (Z.of_nat (String.length text))
      {| p_child := ch; p_errno := er; p_next := nx; p_streams := st;
         p_files := fs; p_trace := tr ++ [Output Stderr text] |}.
Proof. reflexivity. Qed.

Lemma fprintf_eq (f : nat) (text : string) (s : stream) :
  st !! f = Some s ->
  fprintf o f text k P
  = match os_fprintf o with
    | IoOk =>
        k (Z.of_nat (String.length text))
          {| p_child := ch; p_errno := er; p_next := nx;
             p_streams := <[f := {| s_path := s_path s;
                                    s_buf := (s_buf s ++ text)%string |}]> st;
             p_files := fs;
             p_trace := tr ++ [Fprintf f text (Z.of_nat (String.length text))] |}
    | IoErr e done =>
        k (-1)
          {| p_child := ch; p_errno := e; p_next := nx;
             p_streams := <[f := {| s_path := s_path s;
                                    s_buf := (s_buf s ++ take_bytes done text)%string |}]> st;
             p_files := fs;
             p_trace := tr ++ [Fprintf f text (-1)] |}
    end.
Proof.
  intros Hs. unfold fprintf. cbn [p_streams]. rewrite Hs.
  destruct (os_fprintf o); reflexivity.
Qed.

Lemma fflush_eq (f : nat) (s : stream) :
  st !! f = Some s ->
  fflush o f k P
  = match os_fflush o with
    | IoOk =>
        k 0 {| p_child := ch; p_errno := er; p_next := nx;
               p_streams := <[f := {| s_path := s_path s; s_buf := EmptyString |}]> st;
               p_files := append_file (s_path s) (s_buf s) fs;
               p_trace := tr ++ [Fflush f 0] |}
    | IoErr e done =>
        k (-1) {| p_child := ch; p_errno := e; p_next := nx;
                  p_streams := <[f := {| s_path := s_path s;
                                         s_buf := if os_keeps_unwritten o
                                                  then drop_bytes done (s_buf s)
                                                  else EmptyString |}]> st;
                  p_files := append_file (s_path s) (take_bytes done (s_buf s)) fs;
                  p_trace := tr ++ [Fflush f (-1)] |}
    end.
Proof.
  intros Hs. unfold fflush. cbn [p_streams]. rewrite Hs.
  destruct (os_fflush o); reflexivity.
Qed.

Lemma fclose_eq (f : nat) (s : stream) :
  st !! f = Some s ->
  fclose o f k P
  = match os_fclose o with
    | IoOk =>
        k 0 {| p_child := ch; p_errno := er; p_next := nx;
               p_streams := delete f st;
               p_files := append_file (s_path s) (s_buf s) fs;
               p_trace := tr ++ [Fclose f true 0] |}
    | IoErr e done =>
        k (-1) {| p_child := ch; p_errno := e; p_next := nx;
                  p_streams := delete f st;
                  p_files := append_file (s_path s) (take_bytes done (s_buf s)) fs;
                  p_trace := tr ++ [Fclose f true (-1)] |}
    end.
Proof.
  intros Hs. unfold fclose. cbn [p_streams]. rewrite Hs.
  destruct (os_fclose o); reflexivity.
Qed.

Lemma execvp_eq (file : string) (args : list string) :
  execvp o file args k P
  = match execvp_started o file with
    | Some (path, via_shell) =>
        [({| p_child := ch; p_errno := er; p_next := nx; p_streams := st;
             p_files := fs; p_trace := tr ++ [Execvp file args] |},
          if via_shell
          then Replaced (os_shell o) (os_shell_arg0 o :: path :: tail args)
          else Replaced path args)]
    | None =>
        k (-1) {| p_child := ch; p_errno := os_exec_errno o; p_next := nx;
                  p_streams := st; p_files := fs;
                  p_trace := tr ++ [Execvp file args] |}
    end.
Proof. unfold execvp. destruct (execvp_started o file) as [[path []]|]; reflexivity. Qed.

End StepsZ.

Section StepsOther.

Context (o : os).
Context (ch : bool) (er : Z) (nx : nat) (st : gmap nat stream)
        (fs : gmap string string) (tr : list event).

Local Abbreviation P := {| p_child := ch; p_errno := er; p_next := nx;
                 p_streams := st; p_files := fs; p_trace := tr |}.

Lemma perror_eq (k : unit -> proc -> result) (label : string) :
  perror o label k P
  = k tt {| p_child := ch; p_errno := er; p_next := nx; p_streams := st;
            p_files := fs;
            p_trace := tr ++ [Output Stderr (describe o label er)] |}.
Proof. reflexivity. Qed.

Lemma fopen_w_eq (k : option nat -> proc -> result) (path : string) :
  fopen_w o path k P
  = match os_fopen o path with
    | Some e =>
        k None {| p_child := ch; p_errno := e; p_next := nx; p_streams := st;
                  p_files := fs; p_trace := tr ++ [Fopen path None] |}
    | None =>
        k (Some nx)
          {| p_child := ch; p_errno := er; p_next := S nx;
             p_streams := <[nx := {| s_path := path; s_buf := EmptyString |}]> st;
             p_files := <[path := EmptyString]> fs;
             p_trace := tr ++ [Fopen path (Some nx)] |}
    end.
Proof. unfold fopen_w. destruct (os_fopen o path); reflexivity. Qed.

End StepsOther.

(** One step of a run: the equation of the action at the head. *)
Ltac step :=
  rewrite ?bind_eq;
  first
    [ rewrite fork_eq | rewrite setsid_eq | rewrite getsid_eq
    | rewrite fopen_w_eq | rewrite exit_eq | rewrite perror_eq
    | rewrite fprintf_stderr_eq | rewrite execvp_eq
    | erewrite fprintf_eq by apply lookup_insert_eq
    | erewrite fflush_eq by apply lookup_insert_eq
    | erewrite fclose_eq by apply lookup_insert_eq
    | rewrite ret_eq ];
  cbn beta iota delta [s_path s_buf].

(** The next answer of the system the run depends on: the one a hypothesis
    gives, or a case split. *)
Ltac oracle_case :=
  match goal with
  | H : os_fork ?o = _ |- context [match os_fork ?o with _ => _ end] => rewrite H
  | H : os_setsid ?o = _ |- context [match os_setsid ?o with _ => _ end] => rewrite H
  | H : os_getsid ?o = _ |- context [match os_getsid ?o with _ => _ end] => rewrite H
  | H : os_fopen ?o ?p = _ |- context [match os_fopen ?o ?p with _ => _ end] => rewrite H
  | H : os_fprintf ?o = _ |- context [match os_fprintf ?o with _ => _ end] => rewrite H
  | H : os_fflush ?o = _ |- context [match os_fflush ?o with _ => _ end] => rewrite H
  | H : os_fclose ?o = _ |- context [match os_fclose ?o with _ => _ end] => rewrite H
  | |- context [match os_fork ?o with _ => _ end] => destruct (os_fork o) eqn:?
  | |- context [match os_setsid ?o with _ => _ end] => destruct (os_setsid o) eqn:?
  | |- context [match os_getsid ?o with _ => _ end] => destruct (os_getsid o) eqn:?
  | |- context [match os_fopen ?o ?p with _ => _ end] => destruct (os_fopen o p) eqn:?
  | |- context [match os_fprintf ?o with _ => _ end] => destruct (os_fprintf o) eqn:?
  | |- context [match os_fflush ?o with _ => _ end] => destruct (os_fflush o) eqn:?
  | |- context [match os_fclose ?o with _ => _ end] => destruct (os_fclose o) eqn:?
  | |- context [execvp_started ?o ?f] =>
      destruct (execvp_started o f) as [[? []]|] eqn:?
  end;
  cbn beta iota delta [Z.ltb Z.gtb Z.eqb Z.compare negb option_map fst];
  rewrite ?length_not_neg.

(** All the paths through [main], one goal each, with the result of the
    run written out. *)
Ltac run_cases :=
  unfold run, main, initial, execvp_resolve;
  match goal with
  | |- context [Z.of_nat (length ?l) <? 3] =>
      destruct (Z.ltb_spec (Z.of_nat (length l)) 3); try lia
  end;
  repeat (repeat step; try oracle_case);
  cbn [app].

(** Membership of a process in a result written out. *)
Ltac pick_process H :=
  cbn [In] in H;
  repeat (destruct H as [H|H]; [injection H as <- <-|]); try contradiction H.

(** Membership of an entry in a trace written out. *)
Ltac pick_event H :=
  cbn [In p_trace] in H;
  repeat (destruct H as [H|H]; [try discriminate H|]); try contradiction H.

(** Membership of a process with a given ending in a result written out. *)
Ltac pick_ending H :=
  cbn [In] in H;
  repeat (destruct H as [H|H]; [simplify_eq|]); try contradiction H.

(** An entry that is in a trace written out. *)
Ltac find_event := cbn [p_trace In]; repeat (first [left; reflexivity | right]).

(** What the file holds after the open, the write, the flush and the
    close, all successful. *)
Lemma written_file (path text : string) (fs : gmap string string) :
  append_file path EmptyString
    (append_file path (EmptyString ++ text) (<[path := EmptyString]> fs)) !! path
  = Some text.
Proof.
  rewrite !append_file_lookup, lookup_insert_eq.
  cbn [default from_option]. rewrite app_empty_r. reflexivity.
Qed.

(** * Properties *)

(** C1. After a successful run (at least two arguments, and [fork],
    [setsid], [getsid], the open, the write, the flush and the close all
    succeed) the session file of the child holds exactly the decimal text
    of the session id and a newline: one line that is a non-negative
    number and reads back as the id, whatever the file held before.  The
    id is the value [getsid(0)] returned, and that call follows the
    [setsid]. *)
Theorem session_file_after_success (o : os) (argv : list string)
    (fs : gmap string string) (c s sid : positive) :
  (3 <= length argv)%nat ->
  os_fork o = Ok c ->
  os_setsid o = Ok s ->
  os_getsid o = Ok sid ->
  os_fopen o (arg argv 1) = None ->
  os_fprintf o = IoOk ->
  os_fflush o = IoOk ->
  os_fclose o = IoOk ->
  exists parent child e post,
    run o argv fs = [parent; (child, e)] /\
    p_child child = true /\
    p_files child !! arg argv 1 = Some (fmt_d (Z.pos sid) ++ nl)%string /\
    is_number_line (fmt_d (Z.pos sid) ++ nl) = true /\
    read_number_line (fmt_d (Z.pos sid) ++ nl) = Some (Z.pos sid) /\
    0 <= Z.pos sid /\
    p_trace child = Fork 0 :: Setsid (Z.pos s) :: Getsid 0 (Z.pos sid) :: post.
Proof.
  intros Hargc Hfork Hsetsid Hgetsid Hopen Hwrite Hflush Hclose.
  destruct (fmt_d_line (Z.pos sid)) as [Hline Hread]; [lia|].
  run_cases.
  all: do 4 eexists; split; [reflexivity|].
  all: cbn [p_child p_files p_trace]; rewrite written_file.
  all: repeat split; try assumption; try lia; reflexivity.
Qed.

Lemma session_file_after_success_witness :
  exists parent child e post,
    run demo_os demo_argv demo_fs = [parent; (child, e)] /\
    p_child child = true /\
    p_files child !! arg demo_argv 1 = Some (fmt_d 4242 ++ nl)%string /\
    is_number_line (fmt_d 4242 ++ nl) = true /\
    read_number_line (fmt_d 4242 ++ nl) = Some 4242 /\
    0 <= 4242 /\
    p_trace child = Fork 0 :: Setsid 4242 :: Getsid 0 4242 :: post.
Proof.
  apply (session_file_after_success demo_os demo_argv demo_fs
           4242%positive 4242%positive 4242%positive);
    first [reflexivity | simpl; lia].
Defined.

(** C3. An invocation with fewer than two arguments after the program name
    ([argc < 3]) is one process that writes the usage message to the error
    stream and ends with status 1: its trace holds that single entry, so
    there is no [fork] and no file is opened or written, and the file
    system is the one it started with. *)
Theorem too_few_arguments (o : os) (argv : list string) (fs : gmap string string) :
  (length argv < 3)%nat ->
  exists p,
    run o argv fs = [(p, Exited 1)] /\
    p_child p = false /\
    p_trace p = [Output Stderr (usage argv)] /\
    p_files p = fs /\
    p_streams p = ∅.
Proof.
  intros Hargc. run_cases.
  eexists. split; [reflexivity|]. repeat split.
Qed.

Lemma too_few_arguments_witness :
  exists p,
    run demo_os ["setsid"; "/tmp/sess.txt"]%string demo_fs = [(p, Exited 1)] /\
    p_child p = false /\
    p_trace p = [Output Stderr (usage ["setsid"; "/tmp/sess.txt"]%string)] /\
    p_files p = demo_fs /\
    p_streams p = ∅.
Proof.
  apply (too_few_arguments demo_os ["setsid"; "/tmp/sess.txt"]%string demo_fs).
  simpl. lia.
Defined.

(** C4. When [fork] succeeds, the original process ends at once with status
    0: its whole trace is the [fork] and the [exit(0)], with no wait and no
    step on the file system, and the other process of the run is the
    child.  The parent's end is the same under every system that answers
    the [fork] alike, whatever becomes of the child. *)
Theorem parent_exits_at_once (o : os) (argv : list string) (fs : gmap string string)
    (c : positive) :
  (3 <= length argv)%nat ->
  os_fork o = Ok c ->
  exists parent child e,
    run o argv fs = [(parent, Exited 0); (child, e)] /\
    p_child parent = false /\ p_child child = true /\
    p_trace parent = [Fork (Z.pos c); Exit 0] /\
    p_files parent = fs /\
    forall o', os_fork o' = Ok c ->
               head (run o' argv fs) = Some (parent, Exited 0).
Proof.
  intros Hargc Hfork.
  assert (Hpar : forall o', os_fork o' = Ok c ->
            exists child e,
              run o' argv fs
              = [({| p_child := false; p_errno := 0; p_next := 0; p_streams := ∅;
                     p_files := fs; p_trace := [Fork (Z.pos c); Exit 0] |}, Exited 0);
                 (child, e)] /\ p_child child = true).
  { clear o Hfork. intros o Hfork.
    run_cases; do 2 eexists; (split; [reflexivity|reflexivity]). }
  destruct (Hpar o Hfork) as (child & e & Hrun & Hchild).
  eexists _, child, e. split; [exact Hrun|].
  repeat split; try assumption.
  intros o' Hfork'. destruct (Hpar o' Hfork') as (child' & e' & -> & _). reflexivity.
Qed.

Lemma parent_exits_at_once_witness :
  exists parent child e,
    run demo_os_full demo_argv demo_fs = [(parent, Exited 0); (child, e)] /\
    p_child parent = false /\ p_child child = true /\
    p_trace parent = [Fork 4242; Exit 0] /\
    p_files parent = demo_fs /\
    forall o', os_fork o' = Ok 4242%positive ->
               head (run o' demo_argv demo_fs) = Some (parent, Exited 0).
Proof.
  apply (parent_exits_at_once demo_os_full demo_argv demo_fs 4242%positive).
  - simpl. lia.
  - reflexivity.
Defined.

(** C2. A process whose trace holds an [execvp] call made it after the
    complete sequence on the session file: opened, the id line written,
    flushed and closed, each call successful and in that order, directly
    before the [execvp].  At that point no stream is open and the file
    holds the line with the non-negative session id.  When the command
    does not resolve to an executable, the process then reports the
    [execvp] error and ends with status 1, the file being as written. *)
Theorem file_written_before_exec (o : os) (argv : list string)
    (fs : gmap string string) (p : proc) (e : ending)
    (file : string) (args : list string) :
  In (p, e) (run o argv fs) ->
  In (Execvp file args) (p_trace p) ->
  exists s sid tail,
    p_trace p
    = [Fork 0; Setsid s; Getsid 0 sid; Fopen (arg argv 1) (Some 0%nat);
       Fprintf 0 (fmt_d sid ++ nl) (Z.of_nat (String.length (fmt_d sid ++ nl)));
       Fflush 0 0; Fclose 0 true 0; Execvp file args] ++ tail /\
    0 <= sid /\
    is_number_line (fmt_d sid ++ nl) = true /\
    p_files p !! arg argv 1 = Some (fmt_d sid ++ nl)%string /\
    p_streams p = ∅ /\
    (execvp_resolve o file = None ->
     e = Exited 1 /\
     tail = [Output Stderr (describe o "execvp" (os_exec_errno o))]).
Proof.
  run_cases; intros Hp He; pick_process Hp; pick_event He.
  all: injection He as <- <-.
  all: eexists _, (Z.pos _), _; split; [reflexivity|].
  all: cbn [p_files p_streams]; rewrite written_file.
  all: rewrite !delete_insert_eq, delete_empty.
  all: repeat split; try lia; try (apply fmt_d_line; lia); try congruence.
Qed.

Lemma file_written_before_exec_witness :
  exists s sid tail,
    p_trace (fst (process (run demo_os demo_argv_missing demo_fs) 1))
    = [Fork 0; Setsid s; Getsid 0 sid; Fopen "/tmp/sess.txt" (Some 0%nat);
       Fprintf 0 (fmt_d sid ++ nl) (Z.of_nat (String.length (fmt_d sid ++ nl)));
       Fflush 0 0; Fclose 0 true 0;
       Execvp "no-such-command" ["no-such-command"; "x"]%string] ++ tail /\
    0 <= sid /\
    is_number_line (fmt_d sid ++ nl) = true /\
    p_files (fst (process (run demo_os demo_argv_missing demo_fs) 1))
      !! "/tmp/sess.txt"%string = Some (fmt_d sid ++ nl)%string /\
    p_streams (fst (process (run demo_os demo_argv_missing demo_fs) 1)) = ∅ /\
    (execvp_resolve demo_os "no-such-command" = None ->
     snd (process (run demo_os demo_argv_missing demo_fs) 1) = Exited 1 /\
     tail = [Output Stderr (describe demo_os "execvp" (os_exec_errno demo_os))]).
Proof.
  apply (file_written_before_exec demo_os demo_argv_missing demo_fs
           (fst (process (run demo_os demo_argv_missing demo_fs) 1))
           (snd (process (run demo_os demo_argv_missing demo_fs) 1))
           "no-such-command" ["no-such-command"; "x"]%string).
  - vm_compute. right. left. reflexivity.
  - vm_compute. tauto.
Defined.

(** ** The search of [execvp] *)












(** C10. No process of a run writes to standard output: no trace has an
    entry for it, and whatever the program itself prints goes to the error
    stream.  On the success path the process ends as the launched command,
    whose output is no longer the program's. *)
Theorem nothing_on_stdout (o : os) (argv : list string) (fs : gmap string string)
    (p : proc) (e : ending) :
  In (p, e) (run o argv fs) ->
  count is_stdout (p_trace p) = 0%nat /\
  forall s text, In (Output s text) (p_trace p) -> s = Stderr.
Proof.
  run_cases; intros Hp; pick_process Hp.
  all: split; [reflexivity|].
  all: intros ? ? Hout; pick_event Hout; congruence.
Qed.

Lemma nothing_on_stdout_witness :
  count is_stdout (p_trace (fst (process (run demo_os_full demo_argv demo_fs) 1))) = 0%nat /\
  forall s text,
    In (Output s text) (p_trace (fst (process (run demo_os_full demo_argv demo_fs) 1))) ->
    s = Stderr.
Proof.
  apply (nothing_on_stdout demo_os_full demo_argv demo_fs
           (fst (process (run demo_os_full demo_argv demo_fs) 1))
           (snd (process (run demo_os_full demo_argv demo_fs) 1))).
  vm_compute. right. left. reflexivity.
Defined.

(** C9. In every process of a run, each stream that was opened is closed by
    exactly one [fclose], also when the write or the flush failed; no
    [fclose] is made on a stream that is not open (none is closed twice);
    the closing comes before the [execvp] step; and no stream is open when
    the process ends, in an exit or in the launched command. *)
Theorem stream_closed_once (o : os) (argv : list string) (fs : gmap string string)
    (p : proc) (e : ending) :
  In (p, e) (run o argv fs) ->
  p_streams p = ∅ /\
  count is_close (p_trace p) = count is_open_ok (p_trace p) /\
  (count is_open_ok (p_trace p) <= 1)%nat /\
  count is_stale_close (p_trace p) = 0%nat /\
  count is_close (until_exec (p_trace p)) = count is_open_ok (until_exec (p_trace p)).
Proof.
  run_cases; intros Hp; pick_process Hp.
  all: cbn [p_streams p_trace]; rewrite ?delete_insert_eq, ?delete_empty.
  all: repeat split; cbn; lia.
Qed.

Lemma stream_closed_once_witness :
  p_streams (fst (process (run demo_os_full demo_argv demo_fs) 1)) = ∅ /\
  count is_close (p_trace (fst (process (run demo_os_full demo_argv demo_fs) 1)))
  = count is_open_ok (p_trace (fst (process (run demo_os_full demo_argv demo_fs) 1))) /\
  (count is_open_ok (p_trace (fst (process (run demo_os_full demo_argv demo_fs) 1))) <= 1)%nat /\
  count is_stale_close (p_trace (fst (process (run demo_os_full demo_argv demo_fs) 1))) = 0%nat /\
  count is_close (until_exec (p_trace (fst (process (run demo_os_full demo_argv demo_fs) 1))))
  = count is_open_ok (until_exec (p_trace (fst (process (run demo_os_full demo_argv demo_fs) 1)))).
Proof.
  apply (stream_closed_once demo_os_full demo_argv demo_fs
           (fst (process (run demo_os_full demo_argv demo_fs) 1))
           (snd (process (run demo_os_full demo_argv demo_fs) 1))).
  vm_compute. right. left. reflexivity.
Defined.

(** C6. When a sub-step on the session file fails (open, write, flush or
    close, the steps before it having succeeded), the child writes the
    step's label with the system's description of the error to the error
    stream and ends with status 1, and its trace has no [execvp] call.  A
    session-file path whose directory is missing or not writable is the
    case of the open failing, with the [errno] the system gives for it. *)
Theorem file_io_failure (o : os) (argv : list string) (fs : gmap string string)
    (c s sid : positive) (label : string) (e : Z) :
  (3 <= length argv)%nat ->
  os_fork o = Ok c ->
  os_setsid o = Ok s ->
  os_getsid o = Ok sid ->
  file_failure o (arg argv 1) = Some (label, e) ->
  exists parent child,
    run o argv fs = [parent; (child, Exited 1)] /\
    p_child child = true /\
    In (Output Stderr (describe o label e)) (p_trace child) /\
    count is_exec (p_trace child) = 0%nat /\
    forall file args, ~ In (Execvp file args) (p_trace child).
Proof.
  intros Hargc Hfork Hsetsid Hgetsid Hfail.
  unfold file_failure in Hfail. revert Hfail.
  run_cases; intros [= <- <-].
  all: do 2 eexists; split; [reflexivity|].
  all: split; [reflexivity|]; split; [find_event|]; split; [reflexivity|].
  all: intros file args Hexec; pick_event Hexec.
Qed.

Lemma file_io_failure_witness :
  exists parent child,
    run demo_os_nodir demo_argv_nodir demo_fs = [parent; (child, Exited 1)] /\
    p_child child = true /\
    In (Output Stderr (describe demo_os_nodir "fopen session file" ENOENT))
       (p_trace child) /\
    count is_exec (p_trace child) = 0%nat /\
    forall file args, ~ In (Execvp file args) (p_trace child).
Proof.
  apply (file_io_failure demo_os_nodir demo_argv_nodir demo_fs
           4242%positive 4242%positive 4242%positive);
    first [reflexivity | simpl; lia].
Defined.

(** C8. An [fopen] call in a trace comes after the [fork] returned 0, the
    [setsid] and the [getsid], all successful, and is on [argv[1]].  On a
    usage error or when [fork], [setsid] or [getsid] fails, no process of
    the run makes a call that creates, truncates or writes a file: each
    ends with the file system it started with, by status 1 or, for the
    parent of a child that failed, by status 0. *)
Theorem file_opened_after_session (o : os) (argv : list string)
    (fs : gmap string string) (p : proc) (e : ending) :
  In (p, e) (run o argv fs) ->
  (forall path r,
     In (Fopen path r) (p_trace p) ->
     path = arg argv 1 /\
     exists s sid post,
       p_trace p
       = Fork 0 :: Setsid (Z.pos s) :: Getsid 0 (Z.pos sid) :: Fopen path r :: post) /\
  ((length argv < 3)%nat \/ (exists n, os_fork o = Err n) \/
   (exists n, os_setsid o = Err n) \/ (exists n, os_getsid o = Err n) ->
   p_files p = fs /\
   count is_file_event (p_trace p) = 0%nat /\
   (e = Exited 1 \/ (e = Exited 0 /\ p_child p = false))).
Proof.
  run_cases; intros Hp; pick_process Hp.
  all: split;
    [ intros path r Hopen; pick_event Hopen; injection Hopen as <- <-;
      (split; [reflexivity|]); do 3 eexists; reflexivity
    | intros [Hn|[[n Hn]|[[n Hn]|[n Hn]]]]; try lia; try congruence;
      (split; [reflexivity|]); (split; [reflexivity|]); auto ].
Qed.

Lemma file_opened_after_session_witness :
  (forall path r,
     In (Fopen path r)
        (p_trace (fst (process (run (with_getsid (Err EPERM) demo_os) demo_argv demo_fs) 1))) ->
     path = arg demo_argv 1 /\
     exists s sid post,
       p_trace (fst (process (run (with_getsid (Err EPERM) demo_os) demo_argv demo_fs) 1))
       = Fork 0 :: Setsid (Z.pos s) :: Getsid 0 (Z.pos sid) :: Fopen path r :: post) /\
  ((length demo_argv < 3)%nat \/
   (exists n, os_fork (with_getsid (Err EPERM) demo_os) = Err n) \/
   (exists n, os_setsid (with_getsid (Err EPERM) demo_os) = Err n) \/
   (exists n, os_getsid (with_getsid (Err EPERM) demo_os) = Err n) ->
   p_files (fst (process (run (with_getsid (Err EPERM) demo_os) demo_argv demo_fs) 1))
   = demo_fs /\
   count is_file_event
     (p_trace (fst (process (run (with_getsid (Err EPERM) demo_os) demo_argv demo_fs) 1)))
   = 0%nat /\
   (snd (process (run (with_getsid (Err EPERM) demo_os) demo_argv demo_fs) 1) = Exited 1 \/
    (snd (process (run (with_getsid (Err EPERM) demo_os) demo_argv demo_fs) 1) = Exited 0 /\
     p_child (fst (process (run (with_getsid (Err EPERM) demo_os) demo_argv demo_fs) 1))
     = false))).
Proof.
  apply (file_opened_after_session (with_getsid (Err EPERM) demo_os) demo_argv demo_fs
           (fst (process (run (with_getsid (Err EPERM) demo_os) demo_argv demo_fs) 1))
           (snd (process (run (with_getsid (Err EPERM) demo_os) demo_argv demo_fs) 1))).
  vm_compute. right. left. reflexivity.
Defined.

(** C5. Every failure ends the failing process with status 1: whichever
    step of the sequence fails first (usage, [fork], [setsid], [getsid], a
    step on the session file, [execvp]), the last process of the run, the
    one that met the failure, reports it on the error stream and exits
    with 1.  No other non-zero status occurs: a process that exits does so
    with 1, or with 0 as the parent after a successful [fork]; without a
    failure no process exits with 1.  Nothing is retried: no library
    function is called twice in a process. *)
Theorem failures_exit_1 (o : os) (argv : list string) (fs : gmap string string) :
  (forall f,
     first_failure o argv = Some f ->
     exists p,
       last (run o argv fs) = Some (p, Exited 1) /\
       In (Output Stderr (diagnostic o argv f)) (p_trace p)) /\
  (forall p status,
     In (p, Exited status) (run o argv fs) ->
     status = 1 \/
     (status = 0 /\ p_child p = false /\
      exists c, os_fork o = Ok c /\ p_trace p = [Fork (Z.pos c); Exit 0])) /\
  (first_failure o argv = None -> forall p, ~ In (p, Exited 1) (run o argv fs)) /\
  (forall p e, In (p, e) (run o argv fs) -> NoDup (map call_name (p_trace p))).
Proof.
  split; [|split; [|split]].
  - intros f Hf. unfold first_failure, file_failure in Hf.
    destruct (Nat.ltb_spec (length argv) 3); revert Hf;
      run_cases; intros [= <-].
    all: eexists; split; [reflexivity|find_event].
  - run_cases; intros p status Hp; pick_ending Hp; eauto 10.
  - intros Hf. unfold first_failure, file_failure in Hf.
    destruct (Nat.ltb_spec (length argv) 3); revert Hf;
      run_cases; intros [=].
    all: intros p Hp; pick_ending Hp.
  - run_cases; intros p end_ Hp; pick_process Hp.
    all: cbn [map call_name p_trace].
    all: apply (bool_decide_unpack _); vm_compute; exact I.
Qed.

Lemma failures_exit_1_witness :
  exists p,
    last (run demo_os demo_argv_missing demo_fs) = Some (p, Exited 1) /\
    In (Output Stderr (diagnostic demo_os demo_argv_missing (ExecError ENOENT)))
       (p_trace p).
Proof.
  apply (proj1 (failures_exit_1 demo_os demo_argv_missing demo_fs)).
  vm_compute. reflexivity.
Defined.

(** * Further properties of [main] *)

(** ** Parts of a text *)


Lemma app_empty_l (s : string) : (EmptyString ++ s)%string = s.
Proof. reflexivity. Qed.

Lemma take_bytes_empty (n : nat) : take_bytes n EmptyString = EmptyString.
Proof. destruct n; reflexivity. Qed.

Lemma take_bytes_0 (s : string) : take_bytes 0 s = EmptyString.
Proof. destruct s; reflexivity. Qed.

Lemma take_bytes_S (n : nat) (c : ascii) (s : string) :
  take_bytes (S n) (String c s) = String c (take_bytes n s).
Proof. reflexivity. Qed.

Lemma drop_bytes_0 (s : string) : drop_bytes 0 s = s.
Proof.
  unfold drop_bytes. rewrite Nat.sub_0_r.
  induction s as [|c s IH]; [reflexivity|].
  cbn [String.length substring]. rewrite IH. reflexivity.
Qed.

Lemma drop_bytes_S (n : nat) (c : ascii) (s : string) :
  drop_bytes (S n) (String c s) = drop_bytes n s.
Proof. reflexivity. Qed.

Lemma drop_bytes_empty (n : nat) : drop_bytes n EmptyString = EmptyString.
Proof. destruct n; reflexivity. Qed.

Lemma prefix_cons (c : ascii) (s1 s2 : string) :
  String.prefix (String c s1) (String c s2) = String.prefix s1 s2.
Proof. cbn [String.prefix]. destruct (ascii_dec c c); [reflexivity|congruence]. Qed.

Lemma prefix_refl (s : string) : String.prefix s s = true.
Proof. induction s as [|c s IH]; [reflexivity|]. rewrite prefix_cons. exact IH. Qed.

Lemma take_prefix (n : nat) (s : string) : String.prefix (take_bytes n s) s = true.
Proof.
  revert n. induction s as [|c s IH]; intros n.
  - rewrite take_bytes_empty. reflexivity.
  - destruct n as [|n]; [reflexivity|].
    rewrite take_bytes_S, prefix_cons. apply IH.
Qed.

Lemma take_take_prefix (n m : nat) (s : string) :
  String.prefix (take_bytes m (take_bytes n s)) s = true.
Proof.
  revert n m. induction s as [|c s IH]; intros n m.
  - rewrite !take_bytes_empty. reflexivity.
  - destruct n as [|n]; [rewrite take_bytes_0, take_bytes_empty; reflexivity|].
    rewrite take_bytes_S. destruct m as [|m]; [reflexivity|].
    rewrite take_bytes_S, prefix_cons. apply IH.
Qed.

Lemma take_drop_prefix (n m : nat) (s : string) :
  String.prefix (take_bytes n s ++ take_bytes m (drop_bytes n s)) s = true.
Proof.
  revert n. induction s as [|c s IH]; intros n.
  - rewrite drop_bytes_empty, !take_bytes_empty. reflexivity.
  - destruct n as [|n].
    + rewrite take_bytes_0, drop_bytes_0, app_empty_l. apply take_prefix.
    + rewrite take_bytes_S, drop_bytes_S.
      change (String c (take_bytes n s) ++ take_bytes m (drop_bytes n s))%string
        with (String c (take_bytes n s ++ take_bytes m (drop_bytes n s))%string).
      rewrite prefix_cons. apply IH.
Qed.

Lemma take_drop (n : nat) (s : string) :
  (take_bytes n s ++ drop_bytes n s)%string = s.
Proof.
  revert n. induction s as [|c s IH]; intros n.
  - rewrite drop_bytes_empty, take_bytes_empty. reflexivity.
  - destruct n as [|n].
    + rewrite take_bytes_0, drop_bytes_0. reflexivity.
    + rewrite take_bytes_S, drop_bytes_S.
      change (String c (take_bytes n s) ++ drop_bytes n s)%string
        with (String c (take_bytes n s ++ drop_bytes n s)%string).
      rewrite IH. reflexivity.
Qed.

(** The content of the session file after the calls on it. *)
Ltac file_content :=
  cbn [p_files]; unfold append_file;
  repeat (rewrite lookup_insert_eq; cbn [default from_option id]);
  rewrite ?app_empty_l, ?take_bytes_empty, ?app_empty_r.

(** X1. When [fork] fails there is no child: the run is the original
    process alone, which reports the error of the [fork] and exits with
    1 without any other call, the file system as it was. *)
Theorem fork_failure_no_child (o : os) (argv : list string)
    (fs : gmap string string) (n : Z) :
  (3 <= length argv)%nat ->
  os_fork o = Err n ->
  exists p,
    run o argv fs = [(p, Exited 1)] /\
    p_child p = false /\
    p_trace p = [Fork (-1); Output Stderr (describe o "fork" n)] /\
    p_files p = fs.
Proof.
  intros Hargc Hfork. run_cases.
  eexists. split; [reflexivity|]. repeat split.
Qed.

Lemma fork_failure_no_child_witness :
  exists p,
    run (with_fork (Err EAGAIN) demo_os) demo_argv demo_fs = [(p, Exited 1)] /\
    p_child p = false /\
    p_trace p
    = [Fork (-1); Output Stderr (describe (with_fork (Err EAGAIN) demo_os) "fork" EAGAIN)] /\
    p_files p = demo_fs.
Proof.
  apply (fork_failure_no_child (with_fork (Err EAGAIN) demo_os) demo_argv demo_fs EAGAIN).
  - simpl. lia.
  - reflexivity.
Defined.

(** X3. Once the open has succeeded, what the session file held before is
    gone on every path: at the end of the process the file holds a prefix
    of the line for the id [getsid] returned, also when the write, the
    flush or the close failed part way. *)
Theorem opened_file_holds_prefix (o : os) (argv : list string)
    (fs : gmap string string) (p : proc) (e : ending) (path : string) (f : nat) :
  In (p, e) (run o argv fs) ->
  In (Fopen path (Some f)) (p_trace p) ->
  exists sid content,
    In (Getsid 0 sid) (p_trace p) /\
    p_files p !! path = Some content /\
    String.prefix content (fmt_d sid ++ nl) = true.
Proof.
  run_cases; intros Hp Hopen; pick_process Hp; pick_event Hopen.
  all: injection Hopen as <- <-.
  all: eexists (Z.pos _), _; split; [find_event|].
  all: file_content; split; [reflexivity|].
  all: try (destruct (os_keeps_unwritten o); rewrite ?take_bytes_empty, ?app_empty_r).
  all: first [ apply prefix_refl | apply take_prefix | apply take_take_prefix
             | apply take_drop_prefix | rewrite take_drop; apply prefix_refl ].
Qed.

Lemma opened_file_holds_prefix_witness :
  exists sid content,
    In (Getsid 0 sid) (p_trace (fst (process (run demo_os_full demo_argv demo_fs) 1))) /\
    p_files (fst (process (run demo_os_full demo_argv demo_fs) 1)) !! "/tmp/sess.txt"%string
    = Some content /\
    String.prefix content (fmt_d sid ++ nl) = true.
Proof.
  apply (opened_file_holds_prefix demo_os_full demo_argv demo_fs
           (fst (process (run demo_os_full demo_argv demo_fs) 1))
           (snd (process (run demo_os_full demo_argv demo_fs) 1))
           "/tmp/sess.txt" 0%nat).
  - vm_compute. right. left. reflexivity.
  - vm_compute. tauto.
Defined.

(** X4. When the session file cannot be opened the file system is left as
    it was in every process of the run: a session file from an earlier
    run keeps its old content. *)
Theorem failed_open_keeps_files (o : os) (argv : list string)
    (fs : gmap string string) (p : proc) (e : ending) (n : Z) :
  os_fopen o (arg argv 1) = Some n ->
  In (p, e) (run o argv fs) ->
  p_files p = fs.
Proof.
  intros Hopen. run_cases; intros Hp; pick_process Hp; reflexivity.
Qed.

Lemma failed_open_keeps_files_witness :
  p_files (fst (process (run demo_os_nodir demo_argv_nodir demo_fs) 1)) = demo_fs.
Proof.
  apply (failed_open_keeps_files demo_os_nodir demo_argv_nodir demo_fs
           (fst (process (run demo_os_nodir demo_argv_nodir demo_fs) 1))
           (snd (process (run demo_os_nodir demo_argv_nodir demo_fs) 1)) ENOENT).
  - reflexivity.
  - vm_compute. right. left. reflexivity.
Defined.

(** X5. A process writes to the error stream exactly when it exits with
    status 1, and then exactly one line: the diagnostic of the first step
    that failed.  The failure is final: after the diagnostic the process
    makes no call but the [fclose] of the stream it had open, whose result
    it does not report.  A process that exits with 0 or continues as the
    command has written nothing. *)
Theorem one_diagnostic_then_stop (o : os) (argv : list string)
    (fs : gmap string string) (p : proc) (e : ending) :
  In (p, e) (run o argv fs) ->
  (e = Exited 1 ->
   exists f,
     first_failure o argv = Some f /\
     stderr_lines (p_trace p) = [diagnostic o argv f] /\
     (after_stderr (p_trace p) = [] \/
      exists h r, after_stderr (p_trace p) = [Fclose h true r])) /\
  (e <> Exited 1 -> stderr_lines (p_trace p) = []).
Proof.
  unfold first_failure, file_failure.
  destruct (Nat.ltb_spec (length argv) 3);
    run_cases; intros Hp; pick_process Hp.
  all: split; [intros He; try discriminate He|intros He; first [reflexivity|congruence]].
  all: eexists; split; [reflexivity|]; split; [reflexivity|].
  all: first [left; reflexivity | right; do 2 eexists; reflexivity].
Qed.

Lemma one_diagnostic_then_stop_witness :
  (snd (process (run demo_os_full demo_argv demo_fs) 1) = Exited 1 ->
   exists f,
     first_failure demo_os_full demo_argv = Some f /\
     stderr_lines (p_trace (fst (process (run demo_os_full demo_argv demo_fs) 1)))
     = [diagnostic demo_os_full demo_argv f] /\
     (after_stderr (p_trace (fst (process (run demo_os_full demo_argv demo_fs) 1))) = [] \/
      exists h r,
        after_stderr (p_trace (fst (process (run demo_os_full demo_argv demo_fs) 1)))
        = [Fclose h true r])) /\
  (snd (process (run demo_os_full demo_argv demo_fs) 1) <> Exited 1 ->
   stderr_lines (p_trace (fst (process (run demo_os_full demo_argv demo_fs) 1))) = []).
Proof.
  apply (one_diagnostic_then_stop demo_os_full demo_argv demo_fs
           (fst (process (run demo_os_full demo_argv demo_fs) 1))
           (snd (process (run demo_os_full demo_argv demo_fs) 1))).
  vm_compute. right. left. reflexivity.
Defined.



(** X8. The session id is queried only in the child and only after the
    new session exists: a [getsid] call in a trace is [getsid(0)] and
    comes directly after the [fork] returned 0 and a successful
    [setsid]. *)
Theorem session_queried_after_creation (o : os) (argv : list string)
    (fs : gmap string string) (p : proc) (e : ending) (pid r : Z) :
  In (p, e) (run o argv fs) ->
  In (Getsid pid r) (p_trace p) ->
  pid = 0 /\ p_child p = true /\
  exists s post,
    p_trace p = Fork 0 :: Setsid (Z.pos s) :: Getsid 0 r :: post.
Proof.
  run_cases; intros Hp Hq; pick_process Hp; pick_event Hq.
  all: injection Hq as <- <-.
  all: split; [reflexivity|]; split; [reflexivity|]; do 2 eexists; reflexivity.
Qed.

Lemma session_queried_after_creation_witness :
  0 = 0 /\
  p_child (fst (process (run (with_getsid (Err EPERM) demo_os) demo_argv demo_fs) 1)) = true /\
  exists s post,
    p_trace (fst (process (run (with_getsid (Err EPERM) demo_os) demo_argv demo_fs) 1))
    = Fork 0 :: Setsid (Z.pos s) :: Getsid 0 (-1) :: post.
Proof.
  apply (session_queried_after_creation (with_getsid (Err EPERM) demo_os) demo_argv demo_fs
           (fst (process (run (with_getsid (Err EPERM) demo_os) demo_argv demo_fs) 1))
           (snd (process (run (with_getsid (Err EPERM) demo_os) demo_argv demo_fs) 1))
           0 (-1)).
  - vm_compute. right. left. reflexivity.
  - vm_compute. tauto.
Defined.

(** X7. The line written for an id determines it: for every [int] the
    decimal text and newline read back as the same number, two numbers
    with the same line are equal, and the line has the shape of a
    non-negative number line exactly for the non-negative ones. *)
Theorem id_line_round_trip (a b : Z) :
  read_number_line (fmt_d a ++ nl) = Some a /\
  is_number_line (fmt_d a ++ nl) = (0 <=? a) /\
  (fmt_d a ++ nl = fmt_d b ++ nl -> a = b)%string.
Proof.
  assert (Hread : forall n, read_number_line (fmt_d n ++ nl) = Some n).
  { intros n. destruct (Z.le_gt_cases 0 n) as [Hn|Hn].
    - apply fmt_d_line. exact Hn.
    - destruct n as [|q|q]; try lia.
      destruct (fmt_d_digits (Z.pos q)) as [Hd _]; [lia|].
      unfold read_number_line.
      change (fmt_d (Z.neg q)) with (String "-"%char (fmt_d (Z.pos q))).
      change (String "-"%char (fmt_d (Z.pos q)) ++ nl)%string
        with (String "-"%char (fmt_d (Z.pos q) ++ nl)%string).
      cbn [before_nl Ascii.eqb Bool.eqb]. rewrite (digits_before_nl _ Hd).
      change (String "-"%char (fmt_d (Z.pos q)))
        with (NilZero.string_of_int (Z.to_int (Z.neg q))).
      rewrite NilZero.isi.
      + cbn [option_map]. f_equal. apply DecimalZ.of_to.
      + discriminate.
      + cbn. intros [= H]. exact (DecimalPos.Unsigned.to_uint_nonnil _ H). }
  split; [apply Hread|]. split.
  - destruct (Z.leb_spec 0 a) as [Ha|Ha].
    + apply fmt_d_line. exact Ha.
    + destruct a as [|q|q]; try lia. reflexivity.
  - intros Heq. pose proof (Hread a) as Ha. rewrite Heq, Hread in Ha. congruence.
Qed.

Lemma id_line_round_trip_witness :
  read_number_line (fmt_d 4242 ++ nl) = Some 4242.
Proof. exact (proj1 (id_line_round_trip 4242 0)). Defined.
